(** * Health metrics engine of the BMI calculator (src/app.py)

    A shallow embedding of the class [HealthCalculator] and of the unit
    conversion done by [show_calorie_calculator].

    Numbers.  The Python code computes on [float]s (and on the [int]
    literals of its tables).  Here every number is an exact rational
    ([Q]): no representation error, no overflow, no NaN.  Python's
    [round(x, 1)] rounds to the nearest tenth, ties to even; [int(x)]
    truncates toward zero; [/] raises [ZeroDivisionError] on a zero
    divisor.

    Dictionaries.  [bmi_categories] is iterated in insertion order, so it
    is an association list; [activity_multipliers] and [goal_adjustments]
    are only looked up by key, so they are finite maps. *)

From Stdlib Require Import ZArith QArith Qround Qabs Lia Lqa String List.
From stdpp Require Import base gmap strings.
Import ListNotations.

Local Open Scope string_scope.
Local Open Scope Q_scope.

(** ** Results of Python calls: a value or a raised exception *)

Inductive exn : Type :=
| ZeroDivisionError.

Inductive result (A : Type) : Type :=
| Ok (a : A)
| Raise (e : exn).

Arguments Ok {A} a.
Arguments Raise {A} e.

Definition bind {A B : Type} (r : result A) (k : A -> result B) : result B :=
  match r with
  | Ok a => k a
  | Raise e => Raise e
  end.

Notation "x <- r ;; k" := (bind r (fun x => k))
  (at level 100, r at next level, right associativity).


(** ** Python arithmetic on exact rationals *)

(** [a / b]: true division. *)
Definition truediv (a b : Q) : result Q :=
  if Qeq_bool b 0 then Raise ZeroDivisionError else Ok (a / b).

(** Nearest integer, ties to the even neighbour. *)
Definition round_half_even (x : Q) : Z :=
  let f := Qfloor x in
  match Qcompare (x - inject_Z f) (1 # 2) with
  | Lt => f
  | Gt => (f + 1)%Z
  | Eq => if Z.even f then f else (f + 1)%Z
  end.

(** [round(x, ndigits)] for [ndigits >= 0]. *)
Definition py_round (x : Q) (ndigits : nat) : Q :=
  let s := Pos.pow 10 (Pos.of_nat ndigits) in
  match ndigits with
  | O => inject_Z (round_half_even x)
  | S _ => round_half_even (x * inject_Z (Zpos s)) # s
  end.

(** [int(x)]: truncation toward zero. *)
Definition py_int (x : Q) : Z := Z.quot (Qnum x) (Zpos (Qden x)).

(** ** class HealthCalculator *)

(** The upper end of a category interval: a number or [float('inf')]. *)
Inductive bound : Type :=
| Fin (q : Q)
| Inf.

Definition Qle_bound (x : Q) (b : bound) : bool :=
  match b with
  | Fin q => Qle_bool x q
  | Inf => true
  end.

Record HealthCalculator : Type := mkHealthCalculator {
  bmi_categories : list (string * (Q * bound))
}.

(** [__init__] *)
Definition init : HealthCalculator :=
  {| bmi_categories :=
       [ ("Underweight", (0, Fin (184 # 10)));
         ("Normal weight", (185 # 10, Fin (249 # 10)));
         ("Overweight", (25, Fin (299 # 10)));
         ("Obesity Class I", (30, Fin (349 # 10)));
         ("Obesity Class II", (35, Fin (399 # 10)));
         ("Obesity Class III", (40, Inf)) ] |}.

Definition calculate_bmi (self : HealthCalculator)
    (weight height : Q) (unit_system : string) : result Q :=
  bmi <- (if String.eqb unit_system "Metric (kg, cm)" then
            height_m <- truediv height 100 ;;
            truediv weight (height_m ^ 2)
          else
            q <- truediv weight (height ^ 2) ;;
            Ok (q * 703)) ;;
  Ok (py_round bmi 1).

(** The loop of [get_bmi_category] over [bmi_categories.items()]. *)
Fixpoint first_category (items : list (string * (Q * bound))) (bmi : Q)
    : string :=
  match items with
  | [] => "Unknown"
  | (category, (min_bmi, max_bmi)) :: rest =>
      if Qle_bool min_bmi bmi && Qle_bound bmi max_bmi then category
      else first_category rest bmi
  end.

Definition get_bmi_category (self : HealthCalculator) (bmi : Q) : string :=
  first_category (bmi_categories self) bmi.

Definition activity_multipliers : gmap string Q :=
  <["Sedentary" := 12 # 10]>
  (<["Lightly active" := 1375 # 1000]>
  (<["Moderately active" := 155 # 100]>
  (<["Very active" := 1725 # 1000]>
  (<["Extremely active" := 19 # 10]> ∅)))).

Definition goal_adjustments : gmap string Q :=
  <["Lose weight" := -500]>
  (<["Maintain weight" := 0]>
  (<["Gain weight" := 500]> ∅)).

(** [d.get(key, default)] *)
Definition dict_get (d : gmap string Q) (key : string) (default : Q) : Q :=
  match d !! key with
  | Some v => v
  | None => default
  end.

Definition calculate_calories (self : HealthCalculator)
    (age : Z) (weight height : Q) (gender activity_level goal : string)
    : result Z :=
  let bmr :=
    if String.eqb gender "Male" then
      10 * weight + (625 # 100) * height - 5 * inject_Z age + 5
    else
      10 * weight + (625 # 100) * height - 5 * inject_Z age - 161 in
  let maintenance_calories :=
    bmr * dict_get activity_multipliers activity_level (12 # 10) in
  Ok (py_int (maintenance_calories + dict_get goal_adjustments goal 0)).

Definition calculate_ideal_weight (self : HealthCalculator)
    (height : Q) (unit_system : string) : result (Q * Q) :=
  ideal <-
    (if String.eqb unit_system "Metric (kg, cm)" then
       height_m <- truediv height 100 ;;
       Ok ((185 # 10) * (height_m ^ 2), (249 # 10) * (height_m ^ 2))
     else
       min_ideal <- truediv ((185 # 10) * (height ^ 2)) 703 ;;
       max_ideal <- truediv ((249 # 10) * (height ^ 2)) 703 ;;
       Ok (min_ideal, max_ideal)) ;;
  let '(min_ideal, max_ideal) := ideal in
  Ok (py_round min_ideal 1, py_round max_ideal 1).

(** ** The callers in the page code *)

(** [show_bmi_calculator], the three engine calls behind the button. *)
Definition show_bmi_calculator (calculator : HealthCalculator)
    (weight height : Q) (unit_system : string)
    : result (Q * string * (Q * Q)) :=
  bmi <- calculate_bmi calculator weight height unit_system ;;
  let category := get_bmi_category calculator bmi in
  ideal <- calculate_ideal_weight calculator height unit_system ;;
  Ok (bmi, category, ideal).

(** [show_calorie_calculator], the conversion before the engine call. *)
Definition to_metric (weight height : Q) (unit_system : string) : Q * Q :=
  if String.eqb unit_system "Imperial (lbs, inches)" then
    let height_cm := height * (254 # 100) in
    let weight_kg := weight * (453592 # 1000000) in
    (weight_kg, height_cm)
  else
    (weight, height).

(** ** Vocabulary of the statements *)



Definition in_interval (bmi : Q) (iv : Q * bound) : Prop :=
  fst iv <= bmi /\ match snd iv with Fin q => bmi <= q | Inf => True end.

(** No number lies in two intervals of the table. *)
Fixpoint pairwise_disjoint (items : list (string * (Q * bound))) : Prop :=
  match items with
  | [] => True
  | e :: rest =>
      List.Forall (fun e' => forall bmi,
                    in_interval bmi (snd e) -> ~ in_interval bmi (snd e'))
                  rest
      /\ pairwise_disjoint rest
  end.

(** The numbers the table leaves out: the negative ones and those
    strictly between two consecutive intervals. *)
Definition in_gap (bmi : Q) : Prop :=
  bmi < 0
  \/ (184 # 10 < bmi /\ bmi < 185 # 10)
  \/ (249 # 10 < bmi /\ bmi < 25)
  \/ (299 # 10 < bmi /\ bmi < 30)
  \/ (349 # 10 < bmi /\ bmi < 35)
  \/ (399 # 10 < bmi /\ bmi < 40).

Definition in_no_interval (bmi : Q) : Prop :=
  forall c iv, In (c, iv) (bmi_categories init) -> ~ in_interval bmi iv.

Definition metric_bmi (weight height : Q) : Q :=
  weight / (height / 100) ^ 2.

Definition imperial_bmi (weight height : Q) : Q :=
  weight / height ^ 2 * 703.

(** The unrounded value [calculate_bmi] works with. *)
Definition raw_bmi (weight height : Q) (unit_system : string) : Q :=
  if String.eqb unit_system "Metric (kg, cm)" then metric_bmi weight height
  else imperial_bmi weight height.

Definition category_names : list string :=
  [ "Underweight"; "Normal weight"; "Overweight";
    "Obesity Class I"; "Obesity Class II"; "Obesity Class III" ].




(** [show_bmi_calculator], the bounds of its [number_input] widgets: the
    weights and heights the page can hand to the engine. *)
Definition number_input (min_value max_value value : Q) : bool :=
  Qle_bool min_value value && Qle_bool value max_value.

Definition bmi_inputs (weight height : Q) (unit_system : string) : bool :=
  if String.eqb unit_system "Metric (kg, cm)" then
    number_input 1 300 weight && number_input 50 250 height
  else
    number_input 1 600 weight && number_input 20 100 height.

(** [show_bmi_calculator], the colour class chosen for the category. *)
Definition css_class (category : string) : string :=
  if String.eqb category "Normal weight" then "healthy"
  else if existsb (String.eqb category) ["Overweight"; "Obesity Class I"]
  then "overweight"
  else if existsb (String.eqb category)
            ["Obesity Class II"; "Obesity Class III"]
  then "obese"
  else "underweight".



(** The place of a category in the order of the table. *)
Fixpoint category_index (names : list string) (c : string) : nat :=
  match names with
  | [] => O
  | name :: rest =>
      if String.eqb c name then O else S (category_index rest c)
  end.

(** The unrounded bound [calculate_ideal_weight] works with, for the BMI
    [factor] 18.5 or 24.9. *)
Definition raw_ideal_weight (factor height : Q) (unit_system : string) : Q :=
  if String.eqb unit_system "Metric (kg, cm)" then factor * (height / 100) ^ 2
  else factor * height ^ 2 / 703.

(** ** Sample runs *)

Example calculate_bmi_70_170 :
  calculate_bmi init 70 170 "Metric (kg, cm)" = Ok (242 # 10).
Proof. vm_compute. reflexivity. Qed.

Example calculate_calories_scenario :
  calculate_calories init 25 70 170 "Male" "Sedentary" "Maintain weight"
  = Ok 1971%Z.
Proof. vm_compute. reflexivity. Qed.

Example calculate_ideal_weight_170 :
  calculate_ideal_weight init 170 "Metric (kg, cm)"
  = Ok (535 # 10, 720 # 10).
Proof. vm_compute. reflexivity. Qed.

(** ** Rounding and truncation *)

Section Rounding.

Lemma round_half_even_cases (x : Q) :
  round_half_even x = Qfloor x /\ x - inject_Z (Qfloor x) <= 1 # 2
  \/ round_half_even x = (Qfloor x + 1)%Z /\ 1 # 2 <= x - inject_Z (Qfloor x).
Proof.
  unfold round_half_even.
  destruct (Qcompare_spec (x - inject_Z (Qfloor x)) (1 # 2)) as [E | L | G].
  - destruct (Z.even (Qfloor x)); [left | right];
      (split; [reflexivity | rewrite E; apply Qle_refl]).
  - left. split; [reflexivity | apply Qlt_le_weak, L].
  - right. split; [reflexivity | apply Qlt_le_weak, G].
Qed.


Lemma round_half_even_mono (x y : Q) :
  x <= y -> (round_half_even x <= round_half_even y)%Z.
Proof.
  intros Hxy.
  pose proof (Qfloor_resp_le x y Hxy) as Hf.
  destruct (Z.eq_dec (Qfloor x) (Qfloor y)) as [E | N].
  - unfold round_half_even. rewrite <- E.
    destruct (Qcompare_spec (x - inject_Z (Qfloor x)) (1 # 2));
      destruct (Qcompare_spec (y - inject_Z (Qfloor x)) (1 # 2));
      destruct (Z.even (Qfloor x)); try lia; exfalso; lra.
  - destruct (round_half_even_cases x) as [[-> _] | [-> _]];
      destruct (round_half_even_cases y) as [[-> _] | [-> _]]; lia.
Qed.


Lemma py_round_1 (x : Q) : py_round x 1 = round_half_even (x * 10) # 10.
Proof. reflexivity. Qed.



Lemma py_round_1_mono (x y : Q) :
  x <= y -> py_round x 1 <= py_round y 1.
Proof.
  intros H. rewrite !py_round_1. unfold Qle. simpl.
  assert (round_half_even (x * 10) <= round_half_even (y * 10))%Z
    by (apply round_half_even_mono; lra).
  lia.
Qed.


End Rounding.

(** ** The category table *)

Section Categories.

Lemma in_interval_test (bmi lo : Q) (hi : bound) :
  Qle_bool lo bmi && Qle_bound bmi hi = true <-> in_interval bmi (lo, hi).
Proof.
  unfold in_interval. simpl. rewrite andb_true_iff, Qle_bool_iff.
  destruct hi as [q |]; simpl; [rewrite Qle_bool_iff |]; intuition.
Qed.

Lemma first_category_none items bmi :
  (forall c iv, In (c, iv) items -> ~ in_interval bmi iv) ->
  first_category items bmi = "Unknown".
Proof.
  induction items as [| [c [lo hi]] rest IH]; intros Hnone; simpl.
  - reflexivity.
  - destruct (Qle_bool lo bmi && Qle_bound bmi hi) eqn:E.
    + apply in_interval_test in E. exfalso.
      apply (Hnone c (lo, hi)); [left; reflexivity | exact E].
    + apply IH. intros c' iv' Hin. apply (Hnone c'). right. exact Hin.
Qed.

Lemma first_category_In items bmi c iv :
  pairwise_disjoint items ->
  In (c, iv) items -> in_interval bmi iv ->
  first_category items bmi = c.
Proof.
  induction items as [| [c0 [lo hi]] rest IH]; intros Hdis Hin Hiv.
  - destruct Hin.
  - destruct Hdis as [Hhead Hrest]. simpl.
    destruct (Qle_bool lo bmi && Qle_bound bmi hi) eqn:E.
    + destruct Hin as [Heq | Hin]; [congruence |].
      apply in_interval_test in E.
      rewrite List.Forall_forall in Hhead.
      exfalso. exact (Hhead _ Hin bmi E Hiv).
    + destruct Hin as [Heq | Hin].
      * inversion Heq; subst. apply in_interval_test in Hiv. congruence.
      * apply IH; assumption.
Qed.

Lemma pairwise_disjoint_unique items bmi e1 e2 :
  pairwise_disjoint items ->
  In e1 items -> in_interval bmi (snd e1) ->
  In e2 items -> in_interval bmi (snd e2) ->
  e1 = e2.
Proof.
  induction items as [| e rest IH]; intros Hdis H1 I1 H2 I2.
  - destruct H1.
  - destruct Hdis as [Hhead Hrest].
    rewrite List.Forall_forall in Hhead.
    destruct H1 as [-> | H1], H2 as [-> | H2].
    + reflexivity.
    + exfalso. exact (Hhead _ H2 bmi I1 I2).
    + exfalso. exact (Hhead _ H1 bmi I2 I1).
    + apply IH; assumption.
Qed.

Lemma bmi_categories_disjoint : pairwise_disjoint (bmi_categories init).
Proof.
  simpl. unfold in_interval.
  repeat (split; [repeat constructor; simpl; intros; lra |]).
  exact I.
Qed.

Lemma in_gap_no_interval bmi : in_gap bmi <-> in_no_interval bmi.
Proof.
  unfold in_gap, in_no_interval, in_interval. split.
  - intros Hgap c iv Hin. simpl in Hin.
    repeat (destruct Hin as [Heq | Hin];
            [inversion Heq; subst; simpl; lra |]).
    destruct Hin.
  - intros Hnone.
    pose proof (Hnone _ _ (or_introl eq_refl)) as H1.
    pose proof (Hnone _ _ (or_intror (or_introl eq_refl))) as H2.
    pose proof (Hnone _ _ (or_intror (or_intror (or_introl eq_refl))))
      as H3.
    pose proof (Hnone _ _
      (or_intror (or_intror (or_intror (or_introl eq_refl))))) as H4.
    pose proof (Hnone _ _
      (or_intror (or_intror (or_intror (or_intror (or_introl eq_refl))))))
      as H5.
    pose proof (Hnone _ _
      (or_intror (or_intror (or_intror (or_intror
        (or_intror (or_introl eq_refl))))))) as H6.
    simpl in H1, H2, H3, H4, H5, H6.
    lra.
Qed.

End Categories.

(** ** The formulas of the engine *)

Section Formulas.

Lemma truediv_nonzero (a b : Q) : ~ b == 0 -> truediv a b = Ok (a / b).
Proof.
  intros Hb. unfold truediv.
  destruct (Qeq_bool b 0) eqn:E; [| reflexivity].
  apply Qeq_bool_iff in E. contradiction.
Qed.

Lemma truediv_zero (a b : Q) :
  b == 0 -> truediv a b = Raise ZeroDivisionError.
Proof.
  intros Hb. unfold truediv.
  apply Qeq_bool_iff in Hb. rewrite Hb. reflexivity.
Qed.

Lemma square_nonzero (x : Q) : ~ x == 0 -> ~ x ^ 2 == 0.
Proof.
  intros Hx H. simpl in H.
  destruct (Qmult_integral _ _ H); contradiction.
Qed.

Lemma hundredth_nonzero (x : Q) : ~ x == 0 -> ~ x / 100 == 0.
Proof.
  intros Hx H. apply Hx.
  assert (E : x == x / 100 * 100) by (field; discriminate).
  rewrite E, H. reflexivity.
Qed.

Lemma calculate_bmi_nonzero self weight height unit_system :
  ~ height == 0 ->
  calculate_bmi self weight height unit_system
  = Ok (py_round (raw_bmi weight height unit_system) 1).
Proof.
  intros Hh. unfold calculate_bmi, raw_bmi, metric_bmi, imperial_bmi.
  destruct (String.eqb unit_system "Metric (kg, cm)").
  - rewrite (truediv_nonzero height 100) by discriminate.
    cbn [bind].
    rewrite truediv_nonzero
      by (apply square_nonzero, hundredth_nonzero, Hh).
    reflexivity.
  - rewrite truediv_nonzero by (apply square_nonzero, Hh).
    reflexivity.
Qed.

Lemma calculate_bmi_zero self weight height unit_system :
  height == 0 ->
  calculate_bmi self weight height unit_system = Raise ZeroDivisionError.
Proof.
  intros Hh. unfold calculate_bmi.
  destruct (String.eqb unit_system "Metric (kg, cm)").
  - rewrite (truediv_nonzero height 100) by discriminate.
    cbn [bind].
    rewrite truediv_zero; [reflexivity |].
    rewrite Hh. reflexivity.
  - rewrite truediv_zero; [reflexivity |].
    rewrite Hh. reflexivity.
Qed.




Lemma calculate_ideal_weight_metric self height :
  calculate_ideal_weight self height "Metric (kg, cm)"
  = Ok (py_round ((185 # 10) * (height / 100) ^ 2) 1,
        py_round ((249 # 10) * (height / 100) ^ 2) 1).
Proof.
  unfold calculate_ideal_weight. cbn [String.eqb Ascii.eqb Bool.eqb].
  rewrite (truediv_nonzero height 100) by discriminate.
  reflexivity.
Qed.

Lemma calculate_ideal_weight_imperial self height unit_system :
  String.eqb unit_system "Metric (kg, cm)" = false ->
  calculate_ideal_weight self height unit_system
  = Ok (py_round ((185 # 10) * height ^ 2 / 703) 1,
        py_round ((249 # 10) * height ^ 2 / 703) 1).
Proof.
  intros Hu. unfold calculate_ideal_weight. rewrite Hu.
  rewrite !(truediv_nonzero _ 703) by discriminate.
  reflexivity.
Qed.


End Formulas.

(** ** calculate_bmi *)

Section CalculateBmi.






End CalculateBmi.












(** ** get_bmi_category *)

Section GetBmiCategory.

Lemma category_names_table :
  category_names = List.map fst (bmi_categories init).
Proof. reflexivity. Qed.

Lemma unknown_not_category : ~ In "Unknown" category_names.
Proof.
  simpl. intros H.
  repeat (destruct H as [H | H]; [discriminate H |]).
  exact H.
Qed.

Lemma get_bmi_category_In bmi c iv :
  In (c, iv) (bmi_categories init) -> in_interval bmi iv ->
  get_bmi_category init bmi = c.
Proof. apply first_category_In, bmi_categories_disjoint. Qed.

(** A whole number of tenths always falls in an interval. *)
Lemma tenths_in_interval (bmi : Q) (n : Z) :
  (0 <= n)%Z -> bmi == n # 10 ->
  exists c iv, In (c, iv) (bmi_categories init) /\ in_interval bmi iv.
Proof.
  intros Hn Hb. unfold in_interval.
  destruct (Z_le_gt_dec n 184);
    [| destruct (Z_le_gt_dec n 249);
       [| destruct (Z_le_gt_dec n 299);
          [| destruct (Z_le_gt_dec n 349);
             [| destruct (Z_le_gt_dec n 399)]]]].
  - exists "Underweight", (0, Fin (184 # 10)).
    split; [simpl; tauto |]. simpl. rewrite Hb.
    split; unfold Qle; simpl; lia.
  - exists "Normal weight", (185 # 10, Fin (249 # 10)).
    split; [simpl; tauto |]. simpl. rewrite Hb.
    split; unfold Qle; simpl; lia.
  - exists "Overweight", (25, Fin (299 # 10)).
    split; [simpl; tauto |]. simpl. rewrite Hb.
    split; unfold Qle; simpl; lia.
  - exists "Obesity Class I", (30, Fin (349 # 10)).
    split; [simpl; tauto |]. simpl. rewrite Hb.
    split; unfold Qle; simpl; lia.
  - exists "Obesity Class II", (35, Fin (399 # 10)).
    split; [simpl; tauto |]. simpl. rewrite Hb.
    split; unfold Qle; simpl; lia.
  - exists "Obesity Class III", (40, Inf).
    split; [simpl; tauto |]. simpl. rewrite Hb.
    split; [unfold Qle; simpl; lia | exact I].
Qed.

Lemma get_bmi_category_tenths (bmi : Q) (n : Z) :
  (0 <= n)%Z -> bmi == n # 10 ->
  In (get_bmi_category init bmi) category_names.
Proof.
  intros Hn Hb.
  destruct (tenths_in_interval bmi n Hn Hb) as (c & iv & Hin & Hiv).
  rewrite (get_bmi_category_In bmi c iv Hin Hiv).
  rewrite category_names_table.
  change c with (fst (c, iv)). apply List.in_map, Hin.
Qed.

End GetBmiCategory.

(** C2, as the code has it: for every bmi >= 0 either exactly one
    interval of the table contains it and [get_bmi_category] returns that
    interval's category, one of the six, or the bmi lies strictly between
    two consecutive intervals and the answer is "Unknown": the intervals
    never overlap, but they do not cover all of [0, oo). *)
Theorem get_bmi_category_exactly_one (bmi : Q) :
  0 <= bmi ->
  (exists c iv,
     In (c, iv) (bmi_categories init) /\ in_interval bmi iv
     /\ get_bmi_category init bmi = c /\ In c category_names
     /\ forall c' iv',
          In (c', iv') (bmi_categories init) -> in_interval bmi iv' ->
          (c', iv') = (c, iv))
  \/ (in_gap bmi /\ get_bmi_category init bmi = "Unknown").
Proof.
  intros Hpos.
  assert (Hdec : in_gap bmi
                 \/ exists c iv, In (c, iv) (bmi_categories init)
                                 /\ in_interval bmi iv).
  { unfold in_gap, in_interval.
    destruct (Qlt_le_dec (184 # 10) bmi) as [G1 |];
      [| right; exists "Underweight", (0, Fin (184 # 10)); simpl; tauto].
    destruct (Qlt_le_dec bmi (185 # 10)); [left; tauto |].
    destruct (Qlt_le_dec (249 # 10) bmi);
      [| right; exists "Normal weight", (185 # 10, Fin (249 # 10));
         simpl; tauto].
    destruct (Qlt_le_dec bmi 25); [left; tauto |].
    destruct (Qlt_le_dec (299 # 10) bmi);
      [| right; exists "Overweight", (25, Fin (299 # 10)); simpl; tauto].
    destruct (Qlt_le_dec bmi 30); [left; tauto |].
    destruct (Qlt_le_dec (349 # 10) bmi);
      [| right; exists "Obesity Class I", (30, Fin (349 # 10));
         simpl; tauto].
    destruct (Qlt_le_dec bmi 35); [left; tauto |].
    destruct (Qlt_le_dec (399 # 10) bmi);
      [| right; exists "Obesity Class II", (35, Fin (399 # 10));
         simpl; tauto].
    destruct (Qlt_le_dec bmi 40); [left; tauto |].
    right; exists "Obesity Class III", (40, Inf); simpl; tauto. }
  destruct Hdec as [Hgap | (c & iv & Hin & Hiv)].
  - right. split; [exact Hgap |].
    apply first_category_none. apply in_gap_no_interval, Hgap.
  - left. exists c, iv.
    split; [exact Hin |]. split; [exact Hiv |].
    split; [| split].
    + apply get_bmi_category_In with iv; assumption.
    + rewrite category_names_table.
      change c with (fst (c, iv)). apply List.in_map, Hin.
    + intros c' iv' Hin' Hiv'.
      apply (pairwise_disjoint_unique (bmi_categories init) bmi);
        [apply bmi_categories_disjoint | | | |]; assumption.
Qed.

Lemma get_bmi_category_exactly_one_witness :
  get_bmi_category init (242 # 10) = "Normal weight".
Proof.
  destruct (get_bmi_category_exactly_one (242 # 10)) as [_ | [_ E]];
    [discriminate | reflexivity | discriminate E].
Defined.

(** C2 as stated fails: 18.45 is non-negative and gets no category. *)
Lemma get_bmi_category_gap :
  0 <= 1845 # 100
  /\ get_bmi_category init (1845 # 100) = "Unknown"
  /\ ~ In (get_bmi_category init (1845 # 100)) category_names.
Proof.
  split; [discriminate |]. split; [reflexivity |].
  apply unknown_not_category.
Qed.

(** C9: a bmi that lies in none of the six closed intervals, that is a
    negative one or one strictly inside a gap between two consecutive
    intervals, is answered with "Unknown". *)
Theorem get_bmi_category_unknown (bmi : Q) :
  in_no_interval bmi \/ in_gap bmi ->
  get_bmi_category init bmi = "Unknown".
Proof.
  intros H. apply first_category_none.
  destruct H as [H | H]; [exact H | apply in_gap_no_interval, H].
Qed.

Lemma get_bmi_category_unknown_witness :
  get_bmi_category init (2495 # 100) = "Unknown"
  /\ get_bmi_category init (-1) = "Unknown".
Proof.
  split; apply get_bmi_category_unknown; right; unfold in_gap.
  - right; right; left. split; reflexivity.
  - left. reflexivity.
Defined.



(** ** calculate_calories *)

Section CalculateCalories.





End CalculateCalories.






(** ** calculate_ideal_weight *)



(** ** Further properties of the engine *)

Section Numbers.

Lemma round_half_even_proper (x y : Q) :
  x == y -> round_half_even x = round_half_even y.
Proof.
  intros E.
  assert (round_half_even x <= round_half_even y)%Z
    by (apply round_half_even_mono; rewrite E; apply Qle_refl).
  assert (round_half_even y <= round_half_even x)%Z
    by (apply round_half_even_mono; rewrite E; apply Qle_refl).
  lia.
Qed.

Lemma py_round_1_proper (x y : Q) : x == y -> py_round x 1 = py_round y 1.
Proof.
  intros E. rewrite !py_round_1.
  rewrite (round_half_even_proper (x * 10) (y * 10)); [reflexivity |].
  rewrite E. reflexivity.
Qed.





End Numbers.

(** ** More on calculate_bmi *)

Section BmiOrder.




Lemma raw_bmi_opp_height (weight height : Q) (unit_system : string) :
  ~ height == 0 ->
  raw_bmi weight (- height) unit_system == raw_bmi weight height unit_system.
Proof.
  intros Hh. unfold raw_bmi, metric_bmi, imperial_bmi.
  destruct (String.eqb unit_system "Metric (kg, cm)"); simpl; field; lra.
Qed.

End BmiOrder.





(** X3: [calculate_bmi] does not look at the sign of the height: a
    negative height gives what its absolute value gives (and 0 raises
    either way). *)
Theorem calculate_bmi_opp_height self (weight height : Q)
    (unit_system : string) :
  calculate_bmi self weight (- height) unit_system
  = calculate_bmi self weight height unit_system.
Proof.
  destruct (Qeq_dec height 0) as [Z | NZ].
  - rewrite !calculate_bmi_zero; [reflexivity | exact Z |].
    rewrite Z. reflexivity.
  - rewrite !calculate_bmi_nonzero; [| exact NZ | lra].
    f_equal. apply py_round_1_proper, raw_bmi_opp_height, NZ.
Qed.

(** X4: a unit system other than the exact string "Metric (kg, cm)" is
    computed as imperial by [calculate_bmi] and [calculate_ideal_weight],
    whereas the conversion of [show_calorie_calculator] leaves everything
    but the exact string "Imperial (lbs, inches)" unconverted. *)
Theorem unit_system_default self (weight height : Q) (unit_system : string) :
  (unit_system <> "Metric (kg, cm)" ->
   calculate_bmi self weight height unit_system
   = calculate_bmi self weight height "Imperial (lbs, inches)"
   /\ calculate_ideal_weight self height unit_system
      = calculate_ideal_weight self height "Imperial (lbs, inches)")
  /\ (unit_system <> "Imperial (lbs, inches)" ->
      to_metric weight height unit_system = (weight, height)).
Proof.
  split.
  - intros Hu. apply String.eqb_neq in Hu.
    unfold calculate_bmi, calculate_ideal_weight. rewrite Hu.
    split; reflexivity.
  - intros Hu. apply String.eqb_neq in Hu.
    unfold to_metric. rewrite Hu. reflexivity.
Qed.

Lemma unit_system_default_witness :
  calculate_bmi init 154 67 "metric"
  = calculate_bmi init 154 67 "Imperial (lbs, inches)"
  /\ to_metric 154 67 "metric" = (154, 67).
Proof.
  destruct (unit_system_default init 154 67 "metric") as [H1 H2].
  split; [apply H1; discriminate | apply H2; discriminate].
Defined.

(** ** More on calculate_ideal_weight *)

Section IdealWeight.

Lemma calculate_ideal_weight_value self (height : Q) (unit_system : string) :
  calculate_ideal_weight self height unit_system
  = Ok (py_round (raw_ideal_weight (185 # 10) height unit_system) 1,
        py_round (raw_ideal_weight (249 # 10) height unit_system) 1).
Proof.
  unfold raw_ideal_weight.
  destruct (String.eqb unit_system "Metric (kg, cm)") eqn:E.
  - apply String.eqb_eq in E. subst.
    apply calculate_ideal_weight_metric.
  - apply calculate_ideal_weight_imperial, E.
Qed.

Lemma square_nonneg (x : Q) : 0 <= x ^ 2.
Proof. simpl. nra. Qed.


Lemma raw_ideal_weight_mono_factor (f1 f2 height : Q) (unit_system : string) :
  f1 <= f2 ->
  raw_ideal_weight f1 height unit_system
  <= raw_ideal_weight f2 height unit_system.
Proof.
  intros Hf. unfold raw_ideal_weight.
  destruct (String.eqb unit_system "Metric (kg, cm)").
  - pose proof (square_nonneg (height / 100)). nra.
  - pose proof (square_nonneg height).
    unfold Qdiv. change (/ 703) with (1 # 703). nra.
Qed.


End IdealWeight.




(** ** calculate_bmi, get_bmi_category and calculate_ideal_weight together *)

Section BmiAndCategory.


(** Where a number falls between two consecutive bounds [lo < hi]. *)
Lemma Q_three_way (x lo hi : Q) : x <= lo \/ (lo < x /\ x < hi) \/ hi <= x.
Proof.
  destruct (Qlt_le_dec lo x); [| tauto].
  destruct (Qlt_le_dec x hi); tauto.
Qed.

Lemma in_gap_or_interval (bmi : Q) :
  in_gap bmi
  \/ exists c iv, In (c, iv) (bmi_categories init) /\ in_interval bmi iv.
Proof.
  unfold in_gap.
  destruct (Qlt_le_dec bmi 0) as [N | P]; [tauto |].
  destruct (Q_three_way bmi (184 # 10) (185 # 10)) as [H | [H | H1]];
    [right; exists "Underweight", (0, Fin (184 # 10));
     unfold in_interval; simpl; tauto | tauto |].
  destruct (Q_three_way bmi (249 # 10) 25) as [H | [H | H2]];
    [right; exists "Normal weight", (185 # 10, Fin (249 # 10));
     unfold in_interval; simpl; tauto | tauto |].
  destruct (Q_three_way bmi (299 # 10) 30) as [H | [H | H3]];
    [right; exists "Overweight", (25, Fin (299 # 10));
     unfold in_interval; simpl; tauto | tauto |].
  destruct (Q_three_way bmi (349 # 10) 35) as [H | [H | H4]];
    [right; exists "Obesity Class I", (30, Fin (349 # 10));
     unfold in_interval; simpl; tauto | tauto |].
  destruct (Q_three_way bmi (399 # 10) 40) as [H | [H | H5]];
    [right; exists "Obesity Class II", (35, Fin (399 # 10));
     unfold in_interval; simpl; tauto | tauto |].
  right; exists "Obesity Class III", (40, Inf).
  unfold in_interval; simpl; tauto.
Qed.

End BmiAndCategory.





(** X9: for every weight and height the widgets of the BMI page let
    through (1 to 300 kg and 50 to 250 cm, or 1 to 600 lbs and 20 to 100
    in), the page's computation raises nothing, the BMI is between 0.1
    and 1200, the category is one of the six, and the ideal range has
    0 < minimum <= maximum. *)
Theorem show_bmi_calculator_page_inputs (weight height : Q)
    (unit_system : string) :
  bmi_inputs weight height unit_system = true ->
  exists bmi category min_ideal max_ideal,
    show_bmi_calculator init weight height unit_system
    = Ok (bmi, category, (min_ideal, max_ideal))
    /\ 1 # 10 <= bmi /\ bmi <= 1200
    /\ In category category_names
    /\ 0 < min_ideal /\ min_ideal <= max_ideal.
Proof.
  intros Hin.
  assert (Hb : 0 < height
               /\ 7 # 100 <= raw_bmi weight height unit_system
               /\ raw_bmi weight height unit_system <= 1200
               /\ 4 <= raw_ideal_weight (185 # 10) height unit_system).
  { unfold bmi_inputs, number_input in Hin.
    unfold raw_bmi, raw_ideal_weight, metric_bmi, imperial_bmi.
    destruct (String.eqb unit_system "Metric (kg, cm)");
      rewrite !andb_true_iff, !Qle_bool_iff in Hin;
      destruct Hin as [[W1 W2] [H1 H2]].
    - assert (S1 : 1 # 4 <= (height / 100) ^ 2)
        by (simpl; unfold Qdiv; change (/ 100) with (1 # 100); nra).
      assert (S2 : (height / 100) ^ 2 <= 25 # 4)
        by (simpl; unfold Qdiv; change (/ 100) with (1 # 100); nra).
      split; [lra |]. split; [apply Qle_shift_div_l; lra |].
      split; [apply Qle_shift_div_r; lra | lra].
    - assert (S1 : 400 <= height ^ 2) by (simpl; nra).
      assert (S2 : height ^ 2 <= 10000) by (simpl; nra).
      assert (L : 1 # 10000 <= weight / height ^ 2)
        by (apply Qle_shift_div_l; lra).
      assert (U : weight / height ^ 2 <= 3 # 2)
        by (apply Qle_shift_div_r; lra).
      split; [lra |]. split; [lra |]. split; [lra |].
      apply Qle_shift_div_l; [reflexivity | lra]. }
  destruct Hb as (Hh & L & U & I).
  assert (Hnz : ~ height == 0) by lra.
  exists (py_round (raw_bmi weight height unit_system) 1),
         (get_bmi_category init
            (py_round (raw_bmi weight height unit_system) 1)),
         (py_round (raw_ideal_weight (185 # 10) height unit_system) 1),
         (py_round (raw_ideal_weight (249 # 10) height unit_system) 1).
  split.
  { unfold show_bmi_calculator.
    rewrite calculate_bmi_nonzero by exact Hnz. cbn [bind].
    rewrite calculate_ideal_weight_value. reflexivity. }
  assert (Hn : (0 <= round_half_even
                      (raw_bmi weight height unit_system * 10))%Z).
  { change 0%Z with (round_half_even 0).
    apply round_half_even_mono. lra. }
  apply py_round_1_mono in L, U, I.
  split; [eapply Qle_trans; [| exact L]; vm_compute; discriminate |].
  split; [eapply Qle_trans; [exact U |]; vm_compute; discriminate |].
  split.
  { apply (get_bmi_category_tenths _
             (round_half_even (raw_bmi weight height unit_system * 10)));
      [exact Hn | rewrite py_round_1; reflexivity]. }
  split.
  - eapply Qlt_le_trans; [| exact I]. reflexivity.
  - apply py_round_1_mono, raw_ideal_weight_mono_factor. discriminate.
Qed.

Lemma show_bmi_calculator_page_inputs_witness :
  exists bmi category min_ideal max_ideal,
    show_bmi_calculator init 300 50 "Metric (kg, cm)"
    = Ok (bmi, category, (min_ideal, max_ideal))
    /\ 1 # 10 <= bmi /\ bmi <= 1200
    /\ In category category_names
    /\ 0 < min_ideal /\ min_ideal <= max_ideal.
Proof.
  apply (show_bmi_calculator_page_inputs 300 50 "Metric (kg, cm)").
  reflexivity.
Defined.

(** ** More on get_bmi_category *)

Section CategoryOrder.

Lemma category_in_names (c : string) (iv : Q * bound) :
  In (c, iv) (bmi_categories init) -> In c category_names.
Proof.
  intros Hin. rewrite category_names_table.
  change c with (fst (c, iv)). apply List.in_map, Hin.
Qed.

(** A category names one interval of the table only. *)
Lemma bmi_categories_functional (c : string) (iv iv' : Q * bound) :
  In (c, iv) (bmi_categories init) -> In (c, iv') (bmi_categories init) ->
  iv = iv'.
Proof.
  simpl. intros H1 H2.
  repeat (destruct H1 as [H1 | H1]; [injection H1 as <- <- |]);
    [.. | destruct H1].
  all: repeat (destruct H2 as [H2 | H2];
               [first [discriminate H2 | injection H2 as <-; reflexivity] |]);
    destruct H2.
Qed.

End CategoryOrder.

(** X10: [get_bmi_category] answers with a category of the table exactly
    for the numbers of that category's closed interval, and with
    "Unknown" exactly for the negative numbers and those in a gap between
    two intervals. *)
Theorem get_bmi_category_iff (bmi : Q) :
  (get_bmi_category init bmi = "Unknown" <-> in_gap bmi)
  /\ forall c iv,
       In (c, iv) (bmi_categories init) ->
       (get_bmi_category init bmi = c <-> in_interval bmi iv).
Proof.
  split.
  - split.
    + intros E.
      destruct (in_gap_or_interval bmi) as [G | (c & iv & Hin & Hiv)];
        [exact G |].
      rewrite (get_bmi_category_In bmi c iv Hin Hiv) in E. subst c.
      exfalso. exact (unknown_not_category (category_in_names _ _ Hin)).
    + intros G. apply first_category_none, in_gap_no_interval, G.
  - intros c iv Hin. split.
    + intros E.
      destruct (in_gap_or_interval bmi) as [G | (c' & iv' & Hin' & Hiv')].
      * exfalso.
        assert (U : get_bmi_category init bmi = "Unknown")
          by (apply first_category_none, in_gap_no_interval, G).
        rewrite U in E. subst c.
        exact (unknown_not_category (category_in_names _ _ Hin)).
      * rewrite (get_bmi_category_In bmi c' iv' Hin' Hiv') in E. subst c'.
        rewrite (bmi_categories_functional c iv iv' Hin Hin'). exact Hiv'.
    + apply get_bmi_category_In, Hin.
Qed.

Lemma get_bmi_category_iff_witness :
  get_bmi_category init 27 = "Overweight"
  <-> in_interval 27 (25, Fin (299 # 10)).
Proof.
  destruct (get_bmi_category_iff 27) as [_ H].
  apply H. simpl. tauto.
Defined.

(** X11: the categories come in the order of the table: of two numbers
    that both fall in an interval, the larger one never gets an earlier
    category. *)
Theorem get_bmi_category_mono (bmi1 bmi2 : Q) :
  bmi1 <= bmi2 -> ~ in_gap bmi1 -> ~ in_gap bmi2 ->
  (category_index category_names (get_bmi_category init bmi1)
   <= category_index category_names (get_bmi_category init bmi2))%nat.
Proof.
  intros Hle G1 G2.
  destruct (in_gap_or_interval bmi1) as [G | (c1 & iv1 & Hin1 & Hiv1)];
    [contradiction |].
  destruct (in_gap_or_interval bmi2) as [G | (c2 & iv2 & Hin2 & Hiv2)];
    [contradiction |].
  rewrite (get_bmi_category_In bmi1 c1 iv1 Hin1 Hiv1).
  rewrite (get_bmi_category_In bmi2 c2 iv2 Hin2 Hiv2).
  clear G1 G2. unfold in_interval in Hiv1, Hiv2. simpl in Hin1, Hin2.
  repeat (destruct Hin1 as [Hin1 | Hin1]; [injection Hin1 as <- <- |]);
    [.. | destruct Hin1].
  all: repeat (destruct Hin2 as [Hin2 | Hin2]; [injection Hin2 as <- <- |]);
    [.. | destruct Hin2].
  all: simpl in Hiv1, Hiv2.
  all: first [exfalso; lra | vm_compute; lia].
Qed.

Lemma get_bmi_category_mono_witness :
  (category_index category_names (get_bmi_category init (242 # 10))
   <= category_index category_names (get_bmi_category init 31))%nat.
Proof.
  apply get_bmi_category_mono.
  - discriminate.
  - intros G. apply in_gap_no_interval in G.
    apply (G "Normal weight" (185 # 10, Fin (249 # 10))); [simpl; tauto |].
    split; discriminate.
  - intros G. apply in_gap_no_interval in G.
    apply (G "Obesity Class I" (30, Fin (349 # 10))); [simpl; tauto |].
    split; discriminate.
Defined.

(** X12: the colour class the BMI page picks: "underweight" up to 18.4,
    "healthy" from 18.5 to 24.9, "overweight" from 25 to 29.9 and from 30
    to 34.9, "obese" from 35 to 39.9 and from 40 on; a negative number or
    one in a gap of the table, answered "Unknown", is coloured
    "underweight" too. *)
Theorem css_class_of_bmi (bmi : Q) :
  ((0 <= bmi /\ bmi <= 184 # 10) \/ in_gap bmi ->
   css_class (get_bmi_category init bmi) = "underweight")
  /\ (185 # 10 <= bmi /\ bmi <= 249 # 10 ->
      css_class (get_bmi_category init bmi) = "healthy")
  /\ ((25 <= bmi /\ bmi <= 299 # 10) \/ (30 <= bmi /\ bmi <= 349 # 10) ->
      css_class (get_bmi_category init bmi) = "overweight")
  /\ ((35 <= bmi /\ bmi <= 399 # 10) \/ 40 <= bmi ->
      css_class (get_bmi_category init bmi) = "obese").
Proof.
  split; [| split; [| split]].
  - intros [H | G].
    + rewrite (get_bmi_category_In bmi "Underweight" (0, Fin (184 # 10)));
        [reflexivity | simpl; tauto | exact H].
    + assert (U : get_bmi_category init bmi = "Unknown")
        by (apply first_category_none, in_gap_no_interval, G).
      rewrite U. reflexivity.
  - intros H.
    rewrite (get_bmi_category_In bmi "Normal weight"
               (185 # 10, Fin (249 # 10)));
      [reflexivity | simpl; tauto | exact H].
  - intros [H | H].
    + rewrite (get_bmi_category_In bmi "Overweight" (25, Fin (299 # 10)));
        [reflexivity | simpl; tauto | exact H].
    + rewrite (get_bmi_category_In bmi "Obesity Class I"
                 (30, Fin (349 # 10)));
        [reflexivity | simpl; tauto | exact H].
  - intros [H | H].
    + rewrite (get_bmi_category_In bmi "Obesity Class II"
                 (35, Fin (399 # 10)));
        [reflexivity | simpl; tauto | exact H].
    + rewrite (get_bmi_category_In bmi "Obesity Class III" (40, Inf));
        [reflexivity | simpl; tauto | split; [exact H | exact I]].
Qed.

Lemma css_class_of_bmi_witness :
  css_class (get_bmi_category init (2995 # 100)) = "underweight"
  /\ css_class (get_bmi_category init 42) = "obese".
Proof.
  destruct (css_class_of_bmi (2995 # 100)) as [A _].
  destruct (css_class_of_bmi 42) as (_ & _ & _ & D).
  split.
  - apply A. right. unfold in_gap.
    right; right; right; left. split; reflexivity.
  - apply D. right. discriminate.
Defined.

(** ** More on calculate_calories *)

Section CaloriesOrder.




End CaloriesOrder.

(** X13: [calculate_calories] takes every gender other than the exact
    string "Male" for "Female". *)
Theorem calculate_calories_gender_default self (age : Z) (weight height : Q)
    (gender activity_level goal : string) :
  gender <> "Male" ->
  calculate_calories self age weight height gender activity_level goal
  = calculate_calories self age weight height "Female" activity_level goal.
Proof.
  intros Hg. apply String.eqb_neq in Hg.
  unfold calculate_calories. rewrite Hg. reflexivity.
Qed.

Lemma calculate_calories_gender_default_witness :
  calculate_calories init 25 70 170 "male" "Sedentary" "Maintain weight"
  = calculate_calories init 25 70 170 "Female" "Sedentary" "Maintain weight".
Proof.
  apply (calculate_calories_gender_default init 25 70 170 "male").
  discriminate.
Defined.






(** ** The macronutrient breakdown *)

Section Macronutrients.




End Macronutrients.



(** X18: whatever table a calculator holds, [get_bmi_category] answers
    with the category of the first entry, in the order of the table,
    whose interval contains the number, and with "Unknown" when no entry
    does. *)
Theorem get_bmi_category_first_match (self : HealthCalculator) (bmi : Q) :
  (exists before c iv after,
     bmi_categories self = (before ++ (c, iv) :: after)%list
     /\ List.Forall (fun e => ~ in_interval bmi (snd e)) before
     /\ in_interval bmi iv
     /\ get_bmi_category self bmi = c)
  \/ (List.Forall (fun e => ~ in_interval bmi (snd e)) (bmi_categories self)
      /\ get_bmi_category self bmi = "Unknown").
Proof.
  unfold get_bmi_category.
  induction (bmi_categories self) as [| [c [lo hi]] rest IH]; simpl.
  - right. split; [constructor | reflexivity].
  - destruct (Qle_bool lo bmi && Qle_bound bmi hi) eqn:E.
    + left. exists [], c, (lo, hi), rest.
      split; [reflexivity |]. split; [constructor |].
      split; [apply in_interval_test, E | reflexivity].
    + assert (N : ~ in_interval bmi (lo, hi)).
      { intros H. apply in_interval_test in H. congruence. }
      destruct IH as [(before & c' & iv' & after & -> & Hb & Hiv & Hc)
                     | [Hall Hu]].
      * left. exists ((c, (lo, hi)) :: before), c', iv', after.
        split; [reflexivity |].
        split; [constructor; assumption |].
        split; assumption.
      * right. split; [constructor; assumption | exact Hu].
Qed.
